(** * Deterministic cost-effectiveness analysis: model and properties

    A shallow embedding of [cost_effectiveness_analysis.py].  The script
    compares two interventions: it adds up the cost of each, discounts it,
    divides it by the QALYs gained, and computes the incremental
    cost-effectiveness ratio (ICER) of the pair.

    Numbers.  The script computes with Python [int] and [float] values.  Here
    a finite number is an exact rational ([Q]), which is the real arithmetic
    the formulas are written in; the rounding error of binary floating point
    is not represented (the module [Binary64] re-runs the base
    case in IEEE double precision).  [float('inf')] is a separate
    constructor, and a division by zero raises [ZeroDivisionError] as in
    Python.  Comparison [==] of two Python numbers is [Qeq_bool]. *)

From Stdlib Require Import QArith Qabs Qpower Qround ZArith List String Ascii.
From Stdlib Require Import DecimalString Lia Lqa.
From Stdlib Require PrimFloat FloatOps SpecFloat.
Import ListNotations.

Local Open Scope Q_scope.

(** ** Python values and exceptions *)

(** A number as the functions return it: a finite value or [float('inf')]. *)
Inductive number : Type :=
| Fin (q : Q)
| PosInf.

Inductive exn : Type :=
| ZeroDivisionError
| OverflowError.

Inductive result (A : Type) : Type :=
| Ok (a : A)
| Raise (e : exn).

Arguments Ok {A} a.
Arguments Raise {A} e.

Definition bind {A B : Type} (c : result A) (k : A -> result B) : result B :=
  match c with
  | Ok a => k a
  | Raise e => Raise e
  end.

Notation "x <- c ;; k" := (bind c (fun x => k))
  (at level 61, c at next level, right associativity).

(** Equality of numbers up to the value of the fraction. *)
Definition number_eq (a b : number) : Prop :=
  match a, b with
  | Fin x, Fin y => x == y
  | PosInf, PosInf => True
  | _, _ => False
  end.

(** Equality of outcomes: the same exception, or equal numbers. *)
Definition result_eq (a b : result number) : Prop :=
  match a, b with
  | Ok x, Ok y => number_eq x y
  | Raise e, Raise e' => e = e'
  | _, _ => False
  end.

(** [b] is the finite number [- a]. *)
Definition negated (a b : result number) : Prop :=
  match a, b with
  | Ok (Fin x), Ok (Fin y) => y == - x
  | _, _ => False
  end.

(** [x / y]: true division, which raises on a zero divisor. *)
Definition py_truediv (x y : Q) : result Q :=
  if Qeq_bool y 0 then Raise ZeroDivisionError else Ok (x / y).

(** [x ** n] for an integer exponent: zero to a negative power raises. *)
Definition py_pow (x : Q) (n : Z) : result Q :=
  match n with
  | Z.neg _ => if Qeq_bool x 0 then Raise ZeroDivisionError else Ok (x ^ n)
  | _ => Ok (x ^ n)
  end.

(** ** Function definitions *)

(** def total_cost(base_cost, visits, visit_cost, tests, test_cost) *)
Definition total_cost (base_cost visits visit_cost tests test_cost : Q) : Q :=
  base_cost + (visits * visit_cost) + (tests * test_cost).

(** def discount_value(value, rate, years) *)
Definition discount_value (value rate : Q) (years : Z) : result Q :=
  factor <- py_pow (1 + rate) years ;;
  py_truediv value factor.

(** [discount_value] with the power operation as a parameter: [pow x y] is
    what Python's [x ** y] evaluates to, a number or an exception
    ([OverflowError] when the power is too large, [ZeroDivisionError] for
    zero to a negative power).  The horizon [years] is any number, whole or
    not. *)
Definition discount_value_with (pow : Q -> Q -> result Q)
  (value rate years : Q) : result Q :=
  factor <- pow (1 + rate) years ;;
  py_truediv value factor.

(** A power operation that can be computed here: zero to a power as Python
    has it, and any other base to the whole part of the exponent, exactly.
    At whole exponents it is [py_pow]. *)
Definition whole_pow (x y : Q) : result Q :=
  if Qeq_bool x 0 then
    match y ?= 0 with
    | Lt => Raise ZeroDivisionError
    | Eq => Ok 1
    | Gt => Ok 0
    end
  else py_pow x (Qfloor y).

(** def calculate_cost_per_qaly(cost, qaly) *)
Definition calculate_cost_per_qaly (cost qaly : Q) : result number :=
  if Qeq_bool qaly 0 then Ok PosInf
  else
    r <- py_truediv cost qaly ;;
    Ok (Fin r).

(** def calculate_icer(cost1, cost2, qaly1, qaly2) *)
Definition calculate_icer (cost1 cost2 qaly1 qaly2 : Q) : result number :=
  let delta_cost := Qabs (cost1 - cost2) in
  let delta_qaly := qaly1 - qaly2 in
  if Qeq_bool delta_qaly 0 then Ok PosInf
  else
    r <- py_truediv delta_cost delta_qaly ;;
    Ok (Fin r).

(** ** Text output: [{:.2f}] *)

(** The nearest integer, a tie going to the even neighbour. *)
Definition round_half_even (q : Q) : Z :=
  let n := Qnum q in
  let d := Z.pos (Qden q) in
  let fl := (n / d)%Z in
  match (2 * (n mod d) ?= d)%Z with
  | Lt => fl
  | Gt => (fl + 1)%Z
  | Eq => if Z.even fl then fl else (fl + 1)%Z
  end.

Definition digits (z : Z) : string :=
  NilZero.string_of_uint (N.to_uint (Z.to_N z)).

Definition two_digits (z : Z) : string :=
  ((if (z <? 10)%Z then "0" else "") ++ digits z)%string.

(** ["{:.2f}".format(x)]: two decimals, a sign for a negative value. *)
Definition format_2f (x : number) : string :=
  match x with
  | PosInf => "inf"%string
  | Fin q =>
      let cents := Z.abs (round_half_even (q * 100)) in
      ((if (Qnum q <? 0)%Z then "-" else "")
         ++ digits (cents / 100) ++ "." ++ two_digits (cents mod 100))%string
  end.

(** The pound sign, as the two bytes of its UTF-8 encoding. *)
Definition pound : string :=
  String (ascii_of_nat 194) (String (ascii_of_nat 163) EmptyString).

(** ** The summary table *)

(** [pd.DataFrame(columns, index=...)]: row labels, and the columns in the
    order of the dict, each holding one cell per row. *)
Record DataFrame : Type := mkDataFrame {
  df_index : list string;
  df_columns : list (string * list number)
}.

Fixpoint position (label : string) (labels : list string) : option nat :=
  match labels with
  | [] => None
  | l :: rest =>
      if String.eqb label l then Some O
      else option_map S (position label rest)
  end.

Fixpoint column (name : string) (cols : list (string * list number))
  : option (list number) :=
  match cols with
  | [] => None
  | (c, cells) :: rest =>
      if String.eqb name c then Some cells else column name rest
  end.

(** [df.loc[row, col]] *)
Definition loc (d : DataFrame) (row col : string) : option number :=
  match position row (df_index d), column col (df_columns d) with
  | Some n, Some cells => nth_error cells n
  | _, _ => None
  end.

(** ** The script *)

(** The module-level constants the script starts from. *)
Record inputs : Type := mkInputs {
  cost_intervention_A : Q;
  cost_intervention_B : Q;
  qaly_intervention_A : Q;
  qaly_intervention_B : Q;
  cost_per_outpatient_visit : Q;
  cost_per_test : Q;
  number_of_visits_A : Q;
  number_of_tests_A : Q;
  number_of_visits_B : Q;
  number_of_tests_B : Q;
  discount_rate : Q;
  years : Z;
  wtp : Q
}.

(** The constants as the source sets them. *)
Definition base_case : inputs := {|
  cost_intervention_A := 46734;
  cost_intervention_B := 45447;
  qaly_intervention_A := 3.57;
  qaly_intervention_B := 3.46;
  cost_per_outpatient_visit := 0;
  cost_per_test := 0;
  number_of_visits_A := 0;
  number_of_tests_A := 0;
  number_of_visits_B := 0;
  number_of_tests_B := 0;
  discount_rate := 0;
  years := 0;
  wtp := 20000
|}.

(** The base case with the costs discounted at 3.5% over five years. *)
Definition discounted_case : inputs := {|
  cost_intervention_A := 46734;
  cost_intervention_B := 45447;
  qaly_intervention_A := 3.57;
  qaly_intervention_B := 3.46;
  cost_per_outpatient_visit := 0;
  cost_per_test := 0;
  number_of_visits_A := 0;
  number_of_tests_A := 0;
  number_of_visits_B := 0;
  number_of_tests_B := 0;
  discount_rate := 0.035;
  years := 5;
  wtp := 20000
|}.

(** Every name the script binds, the printed lines and the table. *)
Record outputs : Type := mkOutputs {
  total_cost_A : Q;
  total_cost_B : Q;
  discounted_cost_A : Q;
  discounted_cost_B : Q;
  cost_per_qaly_A : number;
  cost_per_qaly_B : number;
  icer : number;
  stdout : list string;
  delta_cost : Q;
  delta_qaly : Q;
  df : DataFrame
}.

(** The module body from "Apply functions" to the data frame.  The calls
    into matplotlib between the two draw and save a figure and bind no name
    the table reads; they are left out. *)
Definition script (i : inputs) : result outputs :=
  let total_cost_A :=
    total_cost (cost_intervention_A i) (number_of_visits_A i)
      (cost_per_outpatient_visit i) (number_of_tests_A i) (cost_per_test i) in
  let total_cost_B :=
    total_cost (cost_intervention_B i) (number_of_visits_B i)
      (cost_per_outpatient_visit i) (number_of_tests_B i) (cost_per_test i) in
  discounted_cost_A <- discount_value total_cost_A (discount_rate i) (years i) ;;
  discounted_cost_B <- discount_value total_cost_B (discount_rate i) (years i) ;;
  cost_per_qaly_A <-
    calculate_cost_per_qaly discounted_cost_A (qaly_intervention_A i) ;;
  cost_per_qaly_B <-
    calculate_cost_per_qaly discounted_cost_B (qaly_intervention_B i) ;;
  icer <-
    calculate_icer discounted_cost_A discounted_cost_B
      (qaly_intervention_A i) (qaly_intervention_B i) ;;
  let stdout := [
    ("Total and Discounted Cost for Intervention A: "
       ++ pound ++ format_2f (Fin total_cost_A) ++ ", "
       ++ pound ++ format_2f (Fin discounted_cost_A))%string;
    ("Total and Discounted Cost for Intervention B: "
       ++ pound ++ format_2f (Fin total_cost_B) ++ ", "
       ++ pound ++ format_2f (Fin discounted_cost_B))%string;
    ("Cost per QALY for Intervention A: "
       ++ pound ++ format_2f cost_per_qaly_A)%string;
    ("Cost per QALY for Intervention B: "
       ++ pound ++ format_2f cost_per_qaly_B)%string;
    ("ICER (Incremental Cost-Effectiveness Ratio): "
       ++ pound ++ format_2f icer)%string
  ] in
  let delta_cost := discounted_cost_A - discounted_cost_B in
  let delta_qaly := qaly_intervention_A i - qaly_intervention_B i in
  let df := {|
    df_index := ["Intervention A"; "Intervention B"]%string;
    df_columns := [
      ("Costs", [Fin discounted_cost_A; Fin discounted_cost_B]);
      ("QALYs", [Fin (qaly_intervention_A i); Fin (qaly_intervention_B i)]);
      ("Incremental costs", [Fin delta_cost; Fin 0]);
      ("Incremental QALY", [Fin delta_qaly; Fin 0]);
      ("ICER", [icer; Fin 0])
    ]%string
  |} in
  Ok {|
    total_cost_A := total_cost_A;
    total_cost_B := total_cost_B;
    discounted_cost_A := discounted_cost_A;
    discounted_cost_B := discounted_cost_B;
    cost_per_qaly_A := cost_per_qaly_A;
    cost_per_qaly_B := cost_per_qaly_B;
    icer := icer;
    stdout := stdout;
    delta_cost := delta_cost;
    delta_qaly := delta_qaly;
    df := df
  |}.

(** ** The base case in double precision *)

(** The run of the script on its own constants, in the arithmetic Python
    uses: IEEE 754 binary64, every operation rounded to nearest.  The
    literals [3.57] and [3.46] stand for the nearest doubles, as they do in
    Python. *)
Module Binary64.

Import PrimFloat.
Set Warnings "-inexact-float".

(** The exact value of a finite double. *)
Definition to_Q (f : float) : option Q :=
  match FloatOps.Prim2SF f with
  | SpecFloat.S754_zero _ => Some 0
  | SpecFloat.S754_finite s m e =>
      Some ((if s then - (1) else 1) * inject_Z (Z.pos m) * 2 ^ e)
  | _ => None
  end.

(** [{:.2f}] prints the exact value of the double, correctly rounded. *)
Definition format_2f_f64 (f : float) : option string :=
  option_map (fun q => format_2f (Fin q)) (to_Q f).

Definition total_cost_f64 (base_cost visits visit_cost tests test_cost : float)
  : float :=
  (base_cost + (visits * visit_cost) + (tests * test_cost))%float.

(** The guard keeps a zero divisor away from [/], so the division is the
    IEEE one. *)
Definition calculate_cost_per_qaly_f64 (cost qaly : float) : float :=
  if (qaly =? 0)%float then infinity else (cost / qaly)%float.

Definition calculate_icer_f64 (cost1 cost2 qaly1 qaly2 : float) : float :=
  let delta_cost := abs (cost1 - cost2) in
  let delta_qaly := (qaly1 - qaly2)%float in
  if (delta_qaly =? 0)%float then infinity
  else (delta_cost / delta_qaly)%float.

(** [(1 + 0.0) ** 0] is [1.0]: the factor of the base case. *)
Definition base_factor : float := 1%float.

Definition base_total_cost_A : float := total_cost_f64 46734 0 0 0 0.
Definition base_total_cost_B : float := total_cost_f64 45447 0 0 0 0.
Definition base_discounted_cost_A : float :=
  (base_total_cost_A / base_factor)%float.
Definition base_discounted_cost_B : float :=
  (base_total_cost_B / base_factor)%float.
Definition base_cost_per_qaly_A : float :=
  calculate_cost_per_qaly_f64 base_discounted_cost_A 3.57.
Definition base_cost_per_qaly_B : float :=
  calculate_cost_per_qaly_f64 base_discounted_cost_B 3.46.
Definition base_icer : float :=
  calculate_icer_f64 base_discounted_cost_A base_discounted_cost_B 3.57 3.46.

(** Is the ICER of the base case the double 11700? *)
Definition base_icer_is_11700 : bool := (base_icer =? 11700)%float.

End Binary64.

(** ** The cost-effectiveness plane *)

(** A Python float that need not be finite. *)
Inductive float_value : Type :=
| Finite (q : Q)
| Infinity
| NegInfinity
| NaN.

(** [x * n] for a finite [x]: infinity takes the sign of [x], and zero times
    infinity is not a number. *)
Definition py_mul (x : Q) (n : number) : float_value :=
  match n with
  | Fin q => Finite (x * q)
  | PosInf =>
      match x ?= 0 with
      | Gt => Infinity
      | Lt => NegInfinity
      | Eq => NaN
      end
  end.

(** [min(a, b)]: [b] when it is strictly smaller, else [a]. *)
Definition py_min (a b : Q) : Q := if Qle_bool a b then a else b.

(** [max(a, b)]: [b] when it is strictly larger, else [a]. *)
Definition py_max (a b : Q) : Q := if Qle_bool b a then a else b.

(** What the script hands to matplotlib: the scattered point, the two ends
    of the dashed line of slope [icer] (the lists [x] and [y] of the source),
    the limits of the two axes, and the two ends of the dotted line of slope
    [wtp]. *)
Record plane : Type := mkPlane {
  point : Q * Q;
  cea_x : list Q;
  cea_y : list float_value;
  xlim : Q * Q;
  ylim : Q * Q;
  x_values : list Q;
  y_values : list Q
}.

(** The section "Plot results with CEA plane", from the names a run has
    bound. *)
Definition cea_plane (i : inputs) (o : outputs) : plane :=
  let delta_cost := delta_cost o in
  let delta_qaly := delta_qaly o in
  let x := [py_min (- (2)) (delta_qaly * 1.2); py_max 2 (delta_qaly * 1.2)] in
  let y := map (fun x => py_mul x (icer o)) x in
  let x_values :=
    [py_min (- (5)) (delta_qaly * 1.2); py_max 5 (delta_qaly * 1.2)] in
  let y_values := map (fun x => x * wtp i) x_values in
  {|
    point := (delta_qaly, delta_cost);
    cea_x := x;
    cea_y := y;
    xlim := ((- delta_qaly) * 1.2, delta_qaly * 1.2);
    ylim := ((- delta_cost) * 1.2, delta_cost * 1.2);
    x_values := x_values;
    y_values := y_values
  |}.

(** * Properties *)

(** ** Division *)

Section Division.

Variables x y : Q.

Lemma py_truediv_nonzero : ~ y == 0 -> py_truediv x y = Ok (x / y).
Proof.
  intros Hy. unfold py_truediv.
  destruct (Qeq_bool y 0) eqn:E; [ | reflexivity ].
  apply Qeq_bool_eq in E. contradiction.
Qed.


Lemma Qdiv_pos_pos : 0 < x -> 0 < y -> 0 < x / y.
Proof.
  intros Hx Hy. unfold Qdiv.
  apply Qmult_lt_0_compat; [ assumption | now apply Qinv_lt_0_compat ].
Qed.

End Division.

Lemma Qdiv_pos_neg (x y : Q) : 0 < x -> y < 0 -> x / y < 0.
Proof.
  intros Hx Hy.
  assert (Hy' : 0 < - y) by lra.
  pose proof (Qdiv_pos_pos x (- y) Hx Hy') as H.
  assert (E : x / y == - (x / - y)) by (field; lra).
  rewrite E. lra.
Qed.

Lemma Qminus_eq_0 (a b : Q) : a - b == 0 <-> a == b.
Proof. split; intros H; lra. Qed.

(** ** The two ratios *)

Lemma calculate_cost_per_qaly_zero (cost qaly : Q) :
  qaly == 0 -> calculate_cost_per_qaly cost qaly = Ok PosInf.
Proof.
  intros H. unfold calculate_cost_per_qaly. now rewrite (Qeq_eq_bool _ _ H).
Qed.

Lemma calculate_cost_per_qaly_nonzero (cost qaly : Q) :
  ~ qaly == 0 -> calculate_cost_per_qaly cost qaly = Ok (Fin (cost / qaly)).
Proof.
  intros H. unfold calculate_cost_per_qaly.
  destruct (Qeq_bool qaly 0) eqn:E.
  - apply Qeq_bool_eq in E. contradiction.
  - now rewrite py_truediv_nonzero.
Qed.

Lemma calculate_icer_equal (cost1 cost2 qaly1 qaly2 : Q) :
  qaly1 == qaly2 -> calculate_icer cost1 cost2 qaly1 qaly2 = Ok PosInf.
Proof.
  intros H. unfold calculate_icer.
  apply Qminus_eq_0 in H. now rewrite (Qeq_eq_bool _ _ H).
Qed.

Lemma calculate_icer_distinct (cost1 cost2 qaly1 qaly2 : Q) :
  ~ qaly1 == qaly2 ->
  calculate_icer cost1 cost2 qaly1 qaly2
  = Ok (Fin (Qabs (cost1 - cost2) / (qaly1 - qaly2))).
Proof.
  intros H. unfold calculate_icer.
  assert (H' : ~ qaly1 - qaly2 == 0) by (now rewrite Qminus_eq_0).
  destruct (Qeq_bool (qaly1 - qaly2) 0) eqn:E.
  - apply Qeq_bool_eq in E. contradiction.
  - now rewrite py_truediv_nonzero.
Qed.

Lemma calculate_icer_cost_sym (cost1 cost2 qaly1 qaly2 : Q) :
  calculate_icer cost2 cost1 qaly1 qaly2
  = calculate_icer cost1 cost2 qaly1 qaly2.
Proof.
  unfold calculate_icer. now rewrite (Qabs_Qminus cost2 cost1).
Qed.

Lemma calculate_cost_per_qaly_returns (cost qaly : Q) :
  exists n, calculate_cost_per_qaly cost qaly = Ok n.
Proof.
  destruct (Qeq_dec qaly 0) as [H | H].
  - exists PosInf. now apply calculate_cost_per_qaly_zero.
  - exists (Fin (cost / qaly)). now apply calculate_cost_per_qaly_nonzero.
Qed.

Lemma calculate_icer_returns (cost1 cost2 qaly1 qaly2 : Q) :
  exists n, calculate_icer cost1 cost2 qaly1 qaly2 = Ok n.
Proof.
  destruct (Qeq_dec qaly1 qaly2) as [H | H].
  - exists PosInf. now apply calculate_icer_equal.
  - eexists. now apply calculate_icer_distinct.
Qed.

(** C1.  [calculate_icer] returns [float('inf')] when the two QALY values are
    equal, and otherwise the absolute cost difference divided by the signed
    QALY difference. *)
Theorem calculate_icer_spec (cost1 cost2 qaly1 qaly2 : Q) :
  (qaly1 == qaly2 -> calculate_icer cost1 cost2 qaly1 qaly2 = Ok PosInf) /\
  (~ qaly1 == qaly2 ->
   calculate_icer cost1 cost2 qaly1 qaly2
   = Ok (Fin (Qabs (cost1 - cost2) / (qaly1 - qaly2)))).
Proof.
  split.
  - apply calculate_icer_equal.
  - apply calculate_icer_distinct.
Qed.

Lemma calculate_icer_spec_witness :
  calculate_icer 5 3 (1 # 2) (2 # 4) = Ok PosInf /\
  calculate_icer 3 5 2 (1 # 2) = Ok (Fin (Qabs (3 - 5) / (2 - (1 # 2)))).
Proof.
  split.
  - apply (proj1 (calculate_icer_spec 5 3 (1 # 2) (2 # 4))). reflexivity.
  - apply (proj2 (calculate_icer_spec 3 5 2 (1 # 2))). discriminate.
Defined.

(** C3.  [calculate_cost_per_qaly] returns [float('inf')] for a zero QALY and
    [cost / qaly] otherwise; it never raises. *)
Theorem calculate_cost_per_qaly_spec (cost qaly : Q) :
  (qaly == 0 -> calculate_cost_per_qaly cost qaly = Ok PosInf) /\
  (~ qaly == 0 -> calculate_cost_per_qaly cost qaly = Ok (Fin (cost / qaly))) /\
  (forall e, calculate_cost_per_qaly cost qaly <> Raise e).
Proof.
  split; [ apply calculate_cost_per_qaly_zero | ].
  split; [ apply calculate_cost_per_qaly_nonzero | ].
  intros e.
  destruct (Qeq_dec qaly 0) as [H | H].
  - rewrite (calculate_cost_per_qaly_zero _ _ H). discriminate.
  - rewrite (calculate_cost_per_qaly_nonzero _ _ H). discriminate.
Qed.

Lemma calculate_cost_per_qaly_spec_witness :
  calculate_cost_per_qaly 46734 (0 # 3) = Ok PosInf /\
  calculate_cost_per_qaly 46734 3.57 = Ok (Fin (46734 / 3.57)).
Proof.
  split.
  - apply (proj1 (calculate_cost_per_qaly_spec 46734 (0 # 3))). reflexivity.
  - apply (proj1 (proj2 (calculate_cost_per_qaly_spec 46734 3.57))).
    discriminate.
Defined.

(** C9.  Both ratio functions return for every pair of arguments: the guard
    is taken exactly when the divisor is zero, so [py_truediv] is only
    reached with a non-zero divisor.  A zero cost over a zero QALY, and equal
    costs over equal QALYs, give [float('inf')]. *)
Theorem ratios_total :
  (forall cost qaly, exists n, calculate_cost_per_qaly cost qaly = Ok n) /\
  (forall cost1 cost2 qaly1 qaly2,
      exists n, calculate_icer cost1 cost2 qaly1 qaly2 = Ok n) /\
  (forall cost qaly,
      cost == 0 -> qaly == 0 -> calculate_cost_per_qaly cost qaly = Ok PosInf) /\
  (forall cost1 cost2 qaly1 qaly2,
      cost1 == cost2 -> qaly1 == qaly2 ->
      calculate_icer cost1 cost2 qaly1 qaly2 = Ok PosInf).
Proof.
  repeat split.
  - apply calculate_cost_per_qaly_returns.
  - apply calculate_icer_returns.
  - intros cost qaly _ H. now apply calculate_cost_per_qaly_zero.
  - intros cost1 cost2 qaly1 qaly2 _ H. now apply calculate_icer_equal.
Qed.

Lemma ratios_total_witness :
  calculate_cost_per_qaly (0 # 2) 0 = Ok PosInf /\
  calculate_icer 7 (14 # 2) 3.46 3.460 = Ok PosInf.
Proof.
  destruct ratios_total as (_ & _ & Hcpq & Hicer).
  split.
  - apply Hcpq; reflexivity.
  - apply Hicer; reflexivity.
Defined.

(** ** Total cost *)

(** C5.  For non-negative arguments [total_cost] is the base cost plus visits
    times their unit cost plus tests times their unit cost; the result is
    non-negative; with no visits and no tests it is the base cost. *)
Theorem total_cost_spec (base_cost visits visit_cost tests test_cost : Q) :
  0 <= base_cost -> 0 <= visits -> 0 <= visit_cost ->
  0 <= tests -> 0 <= test_cost ->
  total_cost base_cost visits visit_cost tests test_cost
  == base_cost + visits * visit_cost + tests * test_cost /\
  0 <= total_cost base_cost visits visit_cost tests test_cost /\
  total_cost base_cost 0 0 0 0 == base_cost.
Proof.
  intros Hb Hv Hvc Ht Htc. unfold total_cost.
  split; [ reflexivity | ].
  split; [ | ring ].
  pose proof (Qmult_le_0_compat _ _ Hv Hvc).
  pose proof (Qmult_le_0_compat _ _ Ht Htc).
  lra.
Qed.

Lemma total_cost_spec_witness :
  total_cost 46734 2 150 3 (85 # 2) == 46734 + 2 * 150 + 3 * (85 # 2) /\
  0 <= total_cost 46734 2 150 3 (85 # 2) /\
  total_cost 46734 0 0 0 0 == 46734.
Proof.
  apply (total_cost_spec 46734 2 150 3 (85 # 2)); discriminate.
Defined.

(** ** Argument order of the ICER *)

(** C10.  Exchanging the two costs never changes [calculate_icer]; when the
    costs differ and the QALYs differ, the result is a finite number with the
    sign of [qaly1 - qaly2]. *)
Theorem calculate_icer_cost_order (cost1 cost2 qaly1 qaly2 : Q) :
  calculate_icer cost1 cost2 qaly1 qaly2
  = calculate_icer cost2 cost1 qaly1 qaly2 /\
  (~ cost1 == cost2 -> ~ qaly1 == qaly2 ->
   exists x,
     calculate_icer cost1 cost2 qaly1 qaly2 = Ok (Fin x) /\
     (0 < x <-> 0 < qaly1 - qaly2) /\
     (x < 0 <-> qaly1 - qaly2 < 0)).
Proof.
  split; [ symmetry; apply calculate_icer_cost_sym | ].
  intros Hc Hq.
  exists (Qabs (cost1 - cost2) / (qaly1 - qaly2)).
  split; [ now apply calculate_icer_distinct | ].
  assert (Hnum : 0 < Qabs (cost1 - cost2)).
  { destruct (Qlt_le_dec 0 (Qabs (cost1 - cost2))) as [H | H]; [ exact H | ].
    exfalso. apply Hc.
    pose proof (Qabs_nonneg (cost1 - cost2)) as H0.
    assert (E : Qabs (cost1 - cost2) <= 0) by exact H.
    apply Qabs_Qle_condition in E. lra. }
  destruct (Q_dec (qaly1 - qaly2) 0) as [[Hlt | Hgt] | Heq].
  - pose proof (Qdiv_pos_neg _ _ Hnum Hlt). split; split; intros; lra.
  - pose proof (Qdiv_pos_pos _ _ Hnum Hgt). split; split; intros; lra.
  - exfalso. apply Hq. lra.
Qed.

Lemma calculate_icer_cost_order_witness :
  exists x,
    calculate_icer 45447 46734 3.46 3.57 = Ok (Fin x) /\
    (0 < x <-> 0 < 3.46 - 3.57) /\
    (x < 0 <-> 3.46 - 3.57 < 0).
Proof.
  apply (proj2 (calculate_icer_cost_order 45447 46734 3.46 3.57));
    discriminate.
Defined.

(** C4, as the code has it.  For distinct QALYs, exchanging the two costs
    alone leaves [calculate_icer] unchanged, and exchanging the two QALYs,
    alone or together with the costs, negates it. *)
Theorem calculate_icer_swap (c1 c2 q1 q2 : Q) :
  ~ q1 == q2 ->
  calculate_icer c2 c1 q1 q2 = calculate_icer c1 c2 q1 q2 /\
  negated (calculate_icer c1 c2 q1 q2) (calculate_icer c1 c2 q2 q1) /\
  negated (calculate_icer c1 c2 q1 q2) (calculate_icer c2 c1 q2 q1).
Proof.
  intros Hq.
  assert (Hq' : ~ q2 == q1) by (intros E; apply Hq; now symmetry).
  split; [ apply calculate_icer_cost_sym | ].
  assert (Hneg : negated (calculate_icer c1 c2 q1 q2)
                   (calculate_icer c1 c2 q2 q1)).
  { rewrite (calculate_icer_distinct c1 c2 q1 q2 Hq).
    rewrite (calculate_icer_distinct c1 c2 q2 q1 Hq').
    simpl. field. split; lra. }
  split; [ exact Hneg | ].
  now rewrite (calculate_icer_cost_sym c1 c2 q2 q1).
Qed.

Lemma calculate_icer_swap_witness :
  calculate_icer 1 2 1 0 = calculate_icer 2 1 1 0 /\
  negated (calculate_icer 2 1 1 0) (calculate_icer 2 1 0 1) /\
  negated (calculate_icer 2 1 1 0) (calculate_icer 1 2 0 1).
Proof.
  apply (calculate_icer_swap 2 1 1 0). discriminate.
Defined.

(** C4 as stated fails at costs (2, 1) and QALYs (1, 0): exchanging both
    pairs changes the result from 1 to -1, and exchanging the costs alone
    does not negate it. *)
Lemma calculate_icer_swap_counterexample :
  ~ 1 == 0 /\
  calculate_icer 2 1 1 0 = Ok (Fin (1 / 1)) /\
  ~ result_eq (calculate_icer 1 2 0 1) (calculate_icer 2 1 1 0) /\
  ~ negated (calculate_icer 2 1 1 0) (calculate_icer 1 2 1 0).
Proof.
  split; [ discriminate | ].
  split; [ reflexivity | ].
  split; vm_compute; discriminate.
Qed.

(** ** Discounting *)

Lemma py_pow_nonzero (x : Q) (n : Z) : ~ x == 0 -> py_pow x n = Ok (x ^ n).
Proof.
  intros Hx. unfold py_pow. destruct n; try reflexivity.
  destruct (Qeq_bool x 0) eqn:E; [ | reflexivity ].
  apply Qeq_bool_eq in E. contradiction.
Qed.

Lemma discount_value_nonzero_base (value rate : Q) (years : Z) :
  ~ 1 + rate == 0 ->
  discount_value value rate years = Ok (value / (1 + rate) ^ years).
Proof.
  intros Hb. unfold discount_value.
  rewrite (py_pow_nonzero _ years Hb). simpl.
  apply py_truediv_nonzero. now apply Qpower_not_0.
Qed.

Lemma discount_value_no_years (value rate : Q) :
  discount_value value rate 0 = Ok (value / 1).
Proof. reflexivity. Qed.




(** ** The script as a whole *)

Ltac bind_inv H :=
  match type of H with
  | bind ?c _ = Ok _ =>
      let E := fresh "E" in
      destruct c eqn:E; simpl in H; [ | discriminate H ]
  end.

(** What a run that finishes has bound each name to. *)
Lemma script_inv (i : inputs) (o : outputs) :
  script i = Ok o ->
  total_cost_A o
  = total_cost (cost_intervention_A i) (number_of_visits_A i)
      (cost_per_outpatient_visit i) (number_of_tests_A i) (cost_per_test i) /\
  total_cost_B o
  = total_cost (cost_intervention_B i) (number_of_visits_B i)
      (cost_per_outpatient_visit i) (number_of_tests_B i) (cost_per_test i) /\
  discount_value (total_cost_A o) (discount_rate i) (years i)
  = Ok (discounted_cost_A o) /\
  discount_value (total_cost_B o) (discount_rate i) (years i)
  = Ok (discounted_cost_B o) /\
  calculate_cost_per_qaly (discounted_cost_A o) (qaly_intervention_A i)
  = Ok (cost_per_qaly_A o) /\
  calculate_cost_per_qaly (discounted_cost_B o) (qaly_intervention_B i)
  = Ok (cost_per_qaly_B o) /\
  calculate_icer (discounted_cost_A o) (discounted_cost_B o)
    (qaly_intervention_A i) (qaly_intervention_B i)
  = Ok (icer o) /\
  delta_cost o = discounted_cost_A o - discounted_cost_B o /\
  delta_qaly o = qaly_intervention_A i - qaly_intervention_B i /\
  df o = {|
    df_index := ["Intervention A"; "Intervention B"]%string;
    df_columns := [
      ("Costs", [Fin (discounted_cost_A o); Fin (discounted_cost_B o)]);
      ("QALYs", [Fin (qaly_intervention_A i); Fin (qaly_intervention_B i)]);
      ("Incremental costs", [Fin (delta_cost o); Fin 0]);
      ("Incremental QALY", [Fin (delta_qaly o); Fin 0]);
      ("ICER", [icer o; Fin 0])
    ]%string
  |}.
Proof.
  unfold script. intros H.
  do 5 bind_inv H.
  injection H as <-. simpl.
  repeat split; assumption.
Qed.

(** The script finishes unless the rate is -100% over a non-zero horizon. *)
Lemma script_runs (i : inputs) :
  ~ 1 + discount_rate i == 0 \/ years i = 0%Z -> exists o, script i = Ok o.
Proof.
  intros Hb. unfold script.
  set (tA := total_cost (cost_intervention_A i) _ _ _ _).
  set (tB := total_cost (cost_intervention_B i) _ _ _ _).
  assert (HA : exists dA, discount_value tA (discount_rate i) (years i) = Ok dA).
  { destruct Hb as [Hb | Hy].
    - eexists. now apply discount_value_nonzero_base.
    - rewrite Hy. eexists. apply discount_value_no_years. }
  assert (HB : exists dB, discount_value tB (discount_rate i) (years i) = Ok dB).
  { destruct Hb as [Hb | Hy].
    - eexists. now apply discount_value_nonzero_base.
    - rewrite Hy. eexists. apply discount_value_no_years. }
  destruct HA as [dA ->]. destruct HB as [dB ->]. simpl.
  destruct (calculate_cost_per_qaly_returns dA (qaly_intervention_A i))
    as [cA ->].
  destruct (calculate_cost_per_qaly_returns dB (qaly_intervention_B i))
    as [cB ->].
  destruct (calculate_icer_returns dA dB
              (qaly_intervention_A i) (qaly_intervention_B i)) as [r ->].
  simpl. eexists. reflexivity.
Qed.


(** C7.  In a run of the script each total cost is discounted with the one
    rate and the one horizon, the discounted costs are what the cost per
    QALY and the ICER are computed from, and the QALYs enter both, and the
    table, as they were given.  With a non-negative rate the script
    finishes. *)
Theorem script_discounts_costs_only (i : inputs) :
  (forall o, script i = Ok o ->
     total_cost_A o
     = total_cost (cost_intervention_A i) (number_of_visits_A i)
         (cost_per_outpatient_visit i) (number_of_tests_A i)
         (cost_per_test i) /\
     total_cost_B o
     = total_cost (cost_intervention_B i) (number_of_visits_B i)
         (cost_per_outpatient_visit i) (number_of_tests_B i)
         (cost_per_test i) /\
     discount_value (total_cost_A o) (discount_rate i) (years i)
     = Ok (discounted_cost_A o) /\
     discount_value (total_cost_B o) (discount_rate i) (years i)
     = Ok (discounted_cost_B o) /\
     calculate_cost_per_qaly (discounted_cost_A o) (qaly_intervention_A i)
     = Ok (cost_per_qaly_A o) /\
     calculate_cost_per_qaly (discounted_cost_B o) (qaly_intervention_B i)
     = Ok (cost_per_qaly_B o) /\
     calculate_icer (discounted_cost_A o) (discounted_cost_B o)
       (qaly_intervention_A i) (qaly_intervention_B i)
     = Ok (icer o) /\
     loc (df o) "Intervention A" "QALYs" = Some (Fin (qaly_intervention_A i)) /\
     loc (df o) "Intervention B" "QALYs" = Some (Fin (qaly_intervention_B i))) /\
  (0 <= discount_rate i ->
   exists o,
     script i = Ok o /\
     discounted_cost_A o
     = total_cost_A o / (1 + discount_rate i) ^ years i /\
     discounted_cost_B o
     = total_cost_B o / (1 + discount_rate i) ^ years i /\
     (~ qaly_intervention_A i == 0 ->
      cost_per_qaly_A o
      = Fin (total_cost_A o / (1 + discount_rate i) ^ years i
             / qaly_intervention_A i)) /\
     (~ qaly_intervention_B i == 0 ->
      cost_per_qaly_B o
      = Fin (total_cost_B o / (1 + discount_rate i) ^ years i
             / qaly_intervention_B i)) /\
     (~ qaly_intervention_A i == qaly_intervention_B i ->
      icer o
      = Fin (Qabs (total_cost_A o / (1 + discount_rate i) ^ years i
                   - total_cost_B o / (1 + discount_rate i) ^ years i)
             / (qaly_intervention_A i - qaly_intervention_B i)))).
Proof.
  split.
  - intros o Ho.
    destruct (script_inv i o Ho)
      as (HtA & HtB & HdA & HdB & HcA & HcB & Hicer & _ & _ & Hdf).
    rewrite Hdf. repeat split; assumption || reflexivity.
  - intros Hr.
    assert (Hb : ~ 1 + discount_rate i == 0) by lra.
    destruct (script_runs i (or_introl Hb)) as [o Ho].
    exists o. split; [ exact Ho | ].
    destruct (script_inv i o Ho)
      as (_ & _ & HdA & HdB & HcA & HcB & Hicer & _).
    rewrite (discount_value_nonzero_base _ _ _ Hb) in HdA.
    rewrite (discount_value_nonzero_base _ _ _ Hb) in HdB.
    injection HdA as HdA. injection HdB as HdB.
    split; [ now symmetry | ]. split; [ now symmetry | ].
    rewrite <- HdA, <- HdB in *.
    repeat split.
    + intros Hq. rewrite (calculate_cost_per_qaly_nonzero _ _ Hq) in HcA.
      now injection HcA as <-.
    + intros Hq. rewrite (calculate_cost_per_qaly_nonzero _ _ Hq) in HcB.
      now injection HcB as <-.
    + intros Hq. rewrite (calculate_icer_distinct _ _ _ _ Hq) in Hicer.
      now injection Hicer as <-.
Qed.

Lemma script_discounts_costs_only_witness :
  exists o,
    script discounted_case = Ok o /\
    discount_value (total_cost_A o) 0.035 5 = Ok (discounted_cost_A o) /\
    calculate_cost_per_qaly (discounted_cost_A o) 3.57
    = Ok (cost_per_qaly_A o).
Proof.
  destruct (proj2 (script_discounts_costs_only discounted_case))
    as [o [Ho _]]; [ discriminate | ].
  exists o. split; [ exact Ho | ].
  destruct (proj1 (script_discounts_costs_only discounted_case) o Ho)
    as (_ & _ & HdA & _ & HcA & _).
  split; [ exact HdA | exact HcA ].
Defined.



(** ** The base case *)

(** C2, with the two cost-per-QALY figures the code produces.  On the
    constants of the source the script finishes with total costs 46734 and
    45447, discounted costs equal to them, a cost per QALY of 46734/3.57,
    printed 13090.76, and 45447/3.46, printed 13134.97, and an ICER of
    1287/0.11 = 11700. *)
Theorem base_case_outputs :
  exists o,
    script base_case = Ok o /\
    total_cost_A o == 46734 /\
    total_cost_B o == 45447 /\
    discounted_cost_A o == total_cost_A o /\
    discounted_cost_B o == total_cost_B o /\
    number_eq (cost_per_qaly_A o) (Fin (46734 / 3.57)) /\
    number_eq (cost_per_qaly_B o) (Fin (45447 / 3.46)) /\
    number_eq (icer o) (Fin (1287 / 0.11)) /\
    number_eq (icer o) (Fin 11700) /\
    stdout o = [
      ("Total and Discounted Cost for Intervention A: "
         ++ pound ++ "46734.00, " ++ pound ++ "46734.00")%string;
      ("Total and Discounted Cost for Intervention B: "
         ++ pound ++ "45447.00, " ++ pound ++ "45447.00")%string;
      ("Cost per QALY for Intervention A: " ++ pound ++ "13090.76")%string;
      ("Cost per QALY for Intervention B: " ++ pound ++ "13134.97")%string;
      ("ICER (Incremental Cost-Effectiveness Ratio): "
         ++ pound ++ "11700.00")%string
    ].
Proof.
  eexists. split; [ vm_compute; reflexivity | ].
  vm_compute. repeat split; reflexivity.
Qed.

(** C2 as stated fails: the cost per QALY of A is below 13091 and is printed
    13090.76, not 13091.60; that of B is above 13134.9 and is printed
    13134.97, not 13134.68. *)
Lemma base_case_counterexample :
  exists o a b,
    script base_case = Ok o /\
    cost_per_qaly_A o = Fin a /\
    cost_per_qaly_B o = Fin b /\
    a < 13091 /\
    13134.9 < b /\
    format_2f (Fin a) <> "13091.60"%string /\
    format_2f (Fin b) <> "13134.68"%string.
Proof.
  eexists. eexists. eexists.
  split; [ vm_compute; reflexivity | ].
  split; [ vm_compute; reflexivity | ].
  split; [ vm_compute; reflexivity | ].
  repeat split; vm_compute; try reflexivity; discriminate.
Qed.

(** ** The base case in double precision *)

(** Rounding moves no printed digit: the doubles print as the exact
    quotients do.  The ICER is not the double 11700 (the difference of the
    two QALY doubles is not the double 0.11), yet it prints 11700.00. *)
Lemma binary64_base_case_prints :
  Binary64.format_2f_f64 Binary64.base_total_cost_A = Some "46734.00"%string /\
  Binary64.format_2f_f64 Binary64.base_discounted_cost_A
  = Some "46734.00"%string /\
  Binary64.format_2f_f64 Binary64.base_total_cost_B = Some "45447.00"%string /\
  Binary64.format_2f_f64 Binary64.base_discounted_cost_B
  = Some "45447.00"%string /\
  Binary64.format_2f_f64 Binary64.base_cost_per_qaly_A
  = Some "13090.76"%string /\
  Binary64.format_2f_f64 Binary64.base_cost_per_qaly_B
  = Some "13134.97"%string /\
  Binary64.format_2f_f64 Binary64.base_icer = Some "11700.00"%string /\
  Binary64.base_icer_is_11700 = false.
Proof.
  vm_compute. repeat split; reflexivity.
Qed.

(** * Further properties *)

(** ** Discounting: failure, bounds, composition *)
















(** ** The ICER: what it depends on *)







(** X10.  The ICER is the finite number zero exactly when the costs are
    equal and the QALYs are not. *)
Theorem calculate_icer_zero_iff (c1 c2 q1 q2 : Q) :
  (exists r, calculate_icer c1 c2 q1 q2 = Ok (Fin r) /\ r == 0)
  <-> c1 == c2 /\ ~ q1 == q2.
Proof.
  split.
  - intros (r & Hr & Hz).
    destruct (Qeq_dec q1 q2) as [E | N].
    + rewrite (calculate_icer_equal _ _ _ _ E) in Hr. discriminate Hr.
    + split; [ | exact N ].
      rewrite (calculate_icer_distinct _ _ _ _ N) in Hr.
      injection Hr as Hr. rewrite <- Hr in Hz.
      assert (Hd : ~ q1 - q2 == 0) by (intros H; apply N; lra).
      assert (Ha : Qabs (c1 - c2) == 0).
      { setoid_replace (Qabs (c1 - c2))
          with (Qabs (c1 - c2) / (q1 - q2) * (q1 - q2)) by (field; exact Hd).
        rewrite Hz. ring. }
      assert (Hle : Qabs (c1 - c2) <= 0) by (rewrite Ha; apply Qle_refl).
      apply Qabs_Qle_condition in Hle. lra.
  - intros [Hc Hq].
    exists (Qabs (c1 - c2) / (q1 - q2)).
    split; [ now apply calculate_icer_distinct | ].
    assert (E : c1 - c2 == 0) by lra.
    rewrite E. reflexivity.
Qed.

Lemma calculate_icer_zero_iff_witness :
  exists r, calculate_icer 500 (1000 # 2) 3.57 3.46 = Ok (Fin r) /\ r == 0.
Proof.
  apply (proj2 (calculate_icer_zero_iff 500 (1000 # 2) 3.57 3.46)).
  split; [ reflexivity | discriminate ].
Defined.

(** ** Cost per QALY against the ICER *)



(** ** Runs with a degenerate ratio *)

(** The lines a finished run has printed. *)
Lemma script_inv_stdout (i : inputs) (o : outputs) :
  script i = Ok o ->
  stdout o = [
    ("Total and Discounted Cost for Intervention A: "
       ++ pound ++ format_2f (Fin (total_cost_A o)) ++ ", "
       ++ pound ++ format_2f (Fin (discounted_cost_A o)))%string;
    ("Total and Discounted Cost for Intervention B: "
       ++ pound ++ format_2f (Fin (total_cost_B o)) ++ ", "
       ++ pound ++ format_2f (Fin (discounted_cost_B o)))%string;
    ("Cost per QALY for Intervention A: "
       ++ pound ++ format_2f (cost_per_qaly_A o))%string;
    ("Cost per QALY for Intervention B: "
       ++ pound ++ format_2f (cost_per_qaly_B o))%string;
    ("ICER (Incremental Cost-Effectiveness Ratio): "
       ++ pound ++ format_2f (icer o))%string
  ].
Proof.
  unfold script. intros H.
  do 5 bind_inv H.
  injection H as <-. reflexivity.
Qed.

Lemma py_min_le_l (a b : Q) : py_min a b <= a.
Proof.
  unfold py_min. destruct (Qle_bool a b) eqn:E; [ apply Qle_refl | ].
  destruct (Qlt_le_dec b a) as [H | H]; [ now apply Qlt_le_weak | ].
  apply Qle_bool_iff in H. congruence.
Qed.

Lemma py_min_le_r (a b : Q) : py_min a b <= b.
Proof.
  unfold py_min. destruct (Qle_bool a b) eqn:E; [ | apply Qle_refl ].
  now apply Qle_bool_iff.
Qed.

Lemma py_max_ge_l (a b : Q) : a <= py_max a b.
Proof.
  unfold py_max. destruct (Qle_bool b a) eqn:E; [ apply Qle_refl | ].
  destruct (Qlt_le_dec a b) as [H | H]; [ now apply Qlt_le_weak | ].
  apply Qle_bool_iff in H. congruence.
Qed.

Lemma py_max_ge_r (a b : Q) : b <= py_max a b.
Proof.
  unfold py_max. destruct (Qle_bool b a) eqn:E; [ | apply Qle_refl ].
  now apply Qle_bool_iff.
Qed.

Lemma py_min_mono_l (a a' b : Q) : a <= a' -> py_min a b <= py_min a' b.
Proof.
  intros H. pose proof (py_min_le_l a b). pose proof (py_min_le_r a b).
  unfold py_min at 2. destruct (Qle_bool a' b); lra.
Qed.

Lemma py_max_mono_l (a a' b : Q) : a <= a' -> py_max a b <= py_max a' b.
Proof.
  intros H. pose proof (py_max_ge_l a' b). pose proof (py_max_ge_r a' b).
  unfold py_max at 1. destruct (Qle_bool b a); lra.
Qed.

Lemma py_mul_neg_inf (x : Q) : x < 0 -> py_mul x PosInf = NegInfinity.
Proof.
  intros H. pose proof (proj1 (Qlt_alt x 0) H) as E.
  unfold py_mul. now rewrite E.
Qed.

Lemma py_mul_pos_inf (x : Q) : 0 < x -> py_mul x PosInf = Infinity.
Proof.
  intros H. pose proof (proj1 (Qgt_alt x 0) H) as E.
  unfold py_mul. now rewrite E.
Qed.

(** X12.  When the QALY of the first intervention is zero, a finished run
    has an infinite cost per QALY for it and prints it as "inf". *)
Theorem script_zero_qaly (i : inputs) (o : outputs) :
  script i = Ok o -> qaly_intervention_A i == 0 ->
  cost_per_qaly_A o = PosInf /\
  nth_error (stdout o) 2
  = Some ("Cost per QALY for Intervention A: " ++ pound ++ "inf")%string.
Proof.
  intros Ho Hq.
  destruct (script_inv i o Ho) as (_ & _ & _ & _ & HcA & _).
  rewrite (calculate_cost_per_qaly_zero _ _ Hq) in HcA.
  injection HcA as HcA.
  rewrite (script_inv_stdout i o Ho), <- HcA.
  split; reflexivity.
Qed.

Lemma script_zero_qaly_witness :
  exists o,
    script (mkInputs 46734 45447 0 3.46 0 0 0 0 0 0 0.035 5 20000) = Ok o /\
    cost_per_qaly_A o = PosInf /\
    nth_error (stdout o) 2
    = Some ("Cost per QALY for Intervention A: " ++ pound ++ "inf")%string.
Proof.
  destruct (script_runs (mkInputs 46734 45447 0 3.46 0 0 0 0 0 0 0.035 5 20000))
    as [o Ho]; [ left; discriminate | ].
  exists o. split; [ exact Ho | ].
  apply (script_zero_qaly _ o Ho). reflexivity.
Defined.

(** X13.  When the two QALY values are equal, a finished run has an
    infinite ICER: it prints "inf", the table holds infinity in the ICER
    cell of "Intervention A", and the dashed line of the plot runs from
    (-2, -inf) to (2, +inf). *)
Theorem script_equal_qalys (i : inputs) (o : outputs) :
  script i = Ok o ->
  qaly_intervention_A i == qaly_intervention_B i ->
  icer o = PosInf /\
  nth_error (stdout o) 4
  = Some ("ICER (Incremental Cost-Effectiveness Ratio): "
            ++ pound ++ "inf")%string /\
  loc (df o) "Intervention A" "ICER" = Some PosInf /\
  cea_x (cea_plane i o) = [- (2); 2] /\
  cea_y (cea_plane i o) = [NegInfinity; Infinity].
Proof.
  intros Ho Hq.
  destruct (script_inv i o Ho)
    as (_ & _ & _ & _ & _ & _ & Hicer & _ & Hdq & Hdf).
  rewrite (calculate_icer_equal _ _ _ _ Hq) in Hicer.
  injection Hicer as Hicer.
  assert (Hz : delta_qaly o * 1.2 == 0) by (rewrite Hdq; lra).
  assert (Hmin : py_min (- (2)) (delta_qaly o * 1.2) = - (2)).
  { unfold py_min.
    assert (H : Qle_bool (- (2)) (delta_qaly o * 1.2) = true)
      by (apply Qle_bool_iff; lra).
    now rewrite H. }
  assert (Hmax : py_max 2 (delta_qaly o * 1.2) = 2).
  { unfold py_max.
    assert (H : Qle_bool (delta_qaly o * 1.2) 2 = true)
      by (apply Qle_bool_iff; lra).
    now rewrite H. }
  split; [ now symmetry | ].
  split; [ rewrite (script_inv_stdout i o Ho), <- Hicer; reflexivity | ].
  split; [ rewrite Hdf, <- Hicer; reflexivity | ].
  unfold cea_plane. cbn [cea_x cea_y map].
  rewrite Hmin, Hmax, <- Hicer.
  split; reflexivity.
Qed.

Lemma script_equal_qalys_witness :
  exists o,
    script (mkInputs 46734 45447 3.5 (7 # 2) 0 0 0 0 0 0 0.035 5 20000)
    = Ok o /\
    icer o = PosInf /\
    loc (df o) "Intervention A" "ICER" = Some PosInf.
Proof.
  destruct
    (script_runs (mkInputs 46734 45447 3.5 (7 # 2) 0 0 0 0 0 0 0.035 5 20000))
    as [o Ho]; [ left; discriminate | ].
  exists o. split; [ exact Ho | ].
  destruct (script_equal_qalys _ o Ho) as (H1 & _ & H3 & _);
    [ reflexivity | ].
  split; assumption.
Defined.



(** ** The cost-effectiveness plane *)

(** X15.  The dashed line of slope [icer] is drawn over an interval that
    contains [-2, 2] and the abscissa of the scattered point; the dotted
    line of slope [wtp] is drawn over an interval that contains [-5, 5] and
    the interval of the dashed line. *)
Theorem cea_plane_domains (i : inputs) (o : outputs) :
  exists x0 x1 w0 w1,
    cea_x (cea_plane i o) = [x0; x1] /\
    x_values (cea_plane i o) = [w0; w1] /\
    y_values (cea_plane i o) = [w0 * wtp i; w1 * wtp i] /\
    w0 <= x0 /\ x0 <= - (2) /\ 2 <= x1 /\ x1 <= w1 /\
    w0 <= - (5) /\ 5 <= w1 /\
    x0 <= fst (point (cea_plane i o)) /\
    fst (point (cea_plane i o)) <= x1.
Proof.
  unfold cea_plane. cbn [cea_x x_values y_values point fst map].
  do 4 eexists.
  repeat (split; [ reflexivity | ]).
  set (v := delta_qaly o * 1.2).
  pose proof (py_min_le_l (- (2)) v). pose proof (py_min_le_r (- (2)) v).
  pose proof (py_max_ge_l 2 v). pose proof (py_max_ge_r 2 v).
  pose proof (py_min_le_l (- (5)) v). pose proof (py_max_ge_l 5 v).
  assert (py_min (- (5)) v <= py_min (- (2)) v)
    by (apply py_min_mono_l; discriminate).
  assert (py_max 2 v <= py_max 5 v) by (apply py_max_mono_l; discriminate).
  assert (Hv : v == delta_qaly o * 1.2) by reflexivity.
  repeat split; try assumption.
  - destruct (Qlt_le_dec (delta_qaly o) 0); lra.
  - destruct (Qlt_le_dec (delta_qaly o) 0); lra.
Qed.

(** X16.  No ordinate of the dashed line is "not a number": its abscissas
    are never zero, so an infinite ICER gives infinite ordinates. *)
Theorem cea_line_never_nan (i : inputs) (o : outputs) :
  ~ In NaN (cea_y (cea_plane i o)).
Proof.
  unfold cea_plane. cbn [cea_y map].
  set (v := delta_qaly o * 1.2).
  pose proof (py_min_le_l (- (2)) v) as Hmin.
  pose proof (py_max_ge_l 2 v) as Hmax.
  destruct (icer o) as [s | ].
  - simpl. intros [H | [H | []]]; discriminate H.
  - rewrite py_mul_neg_inf by lra. rewrite py_mul_pos_inf by lra.
    simpl. intros [H | [H | []]]; discriminate H.
Qed.



(** X18.  The axis limits of a finished run are 1.2 times the two
    differences and their negatives.  The x axis runs left to right, with
    the point strictly inside, exactly when the first intervention gains the
    more QALYs; it collapses to a point when the QALYs are equal and runs
    right to left otherwise.  The y axis does the same with the discounted
    costs. *)
Theorem plane_axes_orientation (i : inputs) (o : outputs) :
  script i = Ok o ->
  (fst (xlim (cea_plane i o)) < snd (xlim (cea_plane i o))
   <-> qaly_intervention_B i < qaly_intervention_A i) /\
  (fst (xlim (cea_plane i o)) == snd (xlim (cea_plane i o))
   <-> qaly_intervention_A i == qaly_intervention_B i) /\
  (qaly_intervention_B i < qaly_intervention_A i ->
   fst (xlim (cea_plane i o)) < fst (point (cea_plane i o)) /\
   fst (point (cea_plane i o)) < snd (xlim (cea_plane i o))) /\
  (fst (ylim (cea_plane i o)) < snd (ylim (cea_plane i o))
   <-> discounted_cost_B o < discounted_cost_A o) /\
  (fst (ylim (cea_plane i o)) == snd (ylim (cea_plane i o))
   <-> discounted_cost_A o == discounted_cost_B o) /\
  (discounted_cost_B o < discounted_cost_A o ->
   fst (ylim (cea_plane i o)) < snd (point (cea_plane i o)) /\
   snd (point (cea_plane i o)) < snd (ylim (cea_plane i o))).
Proof.
  intros Ho.
  destruct (script_inv i o Ho) as (_ & _ & _ & _ & _ & _ & _ & Hdc & Hdq & _).
  unfold cea_plane. cbn [xlim ylim point fst snd].
  rewrite Hdc, Hdq.
  repeat split; intros; lra.
Qed.

Lemma plane_axes_orientation_witness :
  exists o,
    script discounted_case = Ok o /\
    fst (xlim (cea_plane discounted_case o))
    < snd (xlim (cea_plane discounted_case o)).
Proof.
  destruct (script_runs discounted_case) as [o Ho]; [ left; discriminate | ].
  exists o. split; [ exact Ho | ].
  destruct (plane_axes_orientation discounted_case o Ho) as (H & _).
  apply H. reflexivity.
Defined.


